(** * doculint: a shallow embedding of the analyzer and its properties

    The development follows [internal/doculint/doculint.go].  The analyzer
    receives an [analysis.Pass] (a package name and the parsed files of that
    package), reports diagnostics through [pass.Reportf] and walks every file
    with [ast.Inspect].

    Layout:
    - [GoStrings]: the functions of Go's [strings] and [fmt] packages that the
      analyzer calls, on byte strings;
    - [Report]: diagnostics and the effect of [pass.Reportf], with panics;
    - [Ast]: the part of [go/ast] the analyzer inspects, and [ast.Inspect];
    - [Doculint]: the analyzer itself, [validatePackageName] and [doculint];
    - the properties. *)

From stdpp Require Import gmap strings list fin_maps.
From Stdlib Require Import ZArith Ascii String.

Set Warnings "-register-all".

Local Open Scope string_scope.
Local Open Scope Z_scope.

(** ** Go's [strings] and [fmt] on byte strings *)

Module GoStrings.

(** A Go string is a sequence of bytes; [string] is one as well. *)
Definition byte_of (n : nat) : ascii := ascii_of_nat n.

Fixpoint bytes (l : list nat) : string :=
  match l with
  | [] => EmptyString
  | n :: l' => String (byte_of n) (bytes l')
  end.

(** The double quote that the messages put around names. *)
Definition dq : string := bytes [34%nat].

(** [strings.HasPrefix(s, prefix)]. *)
Fixpoint HasPrefix (s prefix : string) {struct prefix} : bool :=
  match prefix, s with
  | EmptyString, _ => true
  | String _ _, EmptyString => false
  | String p prefix', String c s' =>
      if Ascii.eqb c p then HasPrefix s' prefix' else false
  end.

(** [strings.ContainsAny(s, chars)] for [chars] made of ASCII bytes, which
    is how the analyzer calls it. *)
Fixpoint containsByte (chars : string) (c : ascii) : bool :=
  match chars with
  | EmptyString => false
  | String d chars' => if Ascii.eqb c d then true else containsByte chars' c
  end.

Fixpoint ContainsAny (s chars : string) : bool :=
  match s with
  | EmptyString => false
  | String c s' => if containsByte chars c then true else ContainsAny s' chars
  end.

(** [strings.ToLower].  Bytes ['A'..'Z'] are mapped to ['a'..'z'] and every
    other byte is kept; this is Go's result on ASCII strings.  The Unicode
    case tables Go consults for bytes from 128 on are not part of the
    model. *)
Definition isUpper (c : ascii) : bool :=
  let n := nat_of_ascii c in (65 <=? n)%nat && (n <=? 90)%nat.

Definition lowerByte (c : ascii) : ascii :=
  if isUpper c then ascii_of_nat (nat_of_ascii c + 32) else c.

Fixpoint ToLower (s : string) : string :=
  match s with
  | EmptyString => EmptyString
  | String c s' => String (lowerByte c) (ToLower s')
  end.

(** [strings.TrimSpace]: leading and trailing white space removed, as
    [unicode.IsSpace] defines it.  A space rune is one of the six ASCII
    spaces, or U+0085, U+00A0 (two bytes in UTF-8), or U+1680,
    U+2000..U+200A, U+2028, U+2029, U+202F, U+205F, U+3000 (three bytes).
    The predicates below take the bytes of one encoding in the order of
    the string. *)
Definition space1 (a : ascii) : bool :=
  let n := nat_of_ascii a in
  ((9 <=? n)%nat && (n <=? 13)%nat) || (n =? 32)%nat.

Definition space2 (a b : ascii) : bool :=
  let m := nat_of_ascii a in
  let n := nat_of_ascii b in
  (m =? 194)%nat && ((n =? 133)%nat || (n =? 160)%nat).

Definition space3 (a b c : ascii) : bool :=
  let l := nat_of_ascii a in
  let m := nat_of_ascii b in
  let n := nat_of_ascii c in
  ((l =? 225)%nat && (m =? 154)%nat && (n =? 128)%nat)
  || ((l =? 226)%nat && (m =? 128)%nat
      && (((128 <=? n)%nat && (n <=? 138)%nat)
          || (n =? 168)%nat || (n =? 169)%nat || (n =? 175)%nat))
  || ((l =? 226)%nat && (m =? 129)%nat && (n =? 159)%nat)
  || ((l =? 227)%nat && (m =? 128)%nat && (n =? 128)%nat).

(** Removal of the space runes at the front; [back] tells that the string
    is read from its end, so that the bytes of an encoding arrive last
    byte first. *)
Fixpoint trimFront (back : bool) (s : string) : string :=
  match s with
  | EmptyString => s
  | String a s1 =>
      if space1 a then trimFront back s1 else
      match s1 with
      | EmptyString => s
      | String b s2 =>
          if (if back then space2 b a else space2 a b) then trimFront back s2 else
          match s2 with
          | EmptyString => s
          | String c s3 =>
              if (if back then space3 c b a else space3 a b c)
              then trimFront back s3 else s
          end
      end
  end.

Fixpoint reverse (acc s : string) : string :=
  match s with
  | EmptyString => acc
  | String c s' => reverse (String c acc) s'
  end.

Definition TrimSpace (s : string) : string :=
  reverse EmptyString (trimFront true (reverse EmptyString (trimFront false s))).

(** [strings.Join(elems, sep)]. *)
Fixpoint Join (elems : list string) (sep : string) : string :=
  match elems with
  | [] => EmptyString
  | [e] => e
  | e :: elems' => e +:+ sep +:+ Join elems' sep
  end.

(** [fmt.Sprintf] with the verb [%s] only: the pieces in order. *)
Definition quoted (s : string) : string := dq +:+ s +:+ dq.

End GoStrings.

Import GoStrings.

(** ** Diagnostics and the effect of reporting *)

Module Report.

(** [token.Pos]: an offset into the file set; [token.NoPos] is 0 and
    [IsValid] tells a position from it. *)
Definition NoPos : Z := 0.
Definition IsValid (p : Z) : bool := negb (p =? NoPos).

(** [analysis.Diagnostic], as [pass.Reportf] fills it. *)
Record Diagnostic : Type := { Pos : Z; Message : string }.

(** A run of analyzer code either returns a value or panics; in both cases
    the diagnostics it reported up to that point have reached the sink, in
    the order of the calls to [pass.Reportf]. *)
Inductive Outcome (A : Type) : Type :=
| Returned (a : A) (out : list Diagnostic)
| Panicked (out : list Diagnostic).
Arguments Returned {A} a out.
Arguments Panicked {A} out.

Definition reported {A} (o : Outcome A) : list Diagnostic :=
  match o with
  | Returned _ out => out
  | Panicked out => out
  end.

Definition returns {A} (o : Outcome A) : bool :=
  match o with
  | Returned _ _ => true
  | Panicked _ => false
  end.

#[export] Instance Outcome_ret : MRet Outcome := fun A a => Returned a [].

#[export] Instance Outcome_bind : MBind Outcome := fun A B k o =>
  match o with
  | Returned a out =>
      match k a with
      | Returned b out' => Returned b (out ++ out')
      | Panicked out' => Panicked (out ++ out')
      end
  | Panicked out => Panicked out
  end.

(** [pass.Reportf(pos, msg)]. *)
Definition Reportf (pos : Z) (msg : string) : Outcome unit :=
  Returned tt [ {| Pos := pos; Message := msg |} ].

(** A run-time panic, such as an index out of range. *)
Definition panic {A} : Outcome A := Panicked [].

(** [for _, x := range l { body(x) }]; [continue] is the end of [body]. *)
Fixpoint forRange {A} (l : list A) (body : A -> Outcome unit) : Outcome unit :=
  match l with
  | [] => mret tt
  | x :: l' => body x ;; forRange l' body
  end.

(** The number of diagnostics of a list that carry a given message. *)
Definition count (msg : string) (out : list Diagnostic) : nat :=
  List.length (filter (fun d => Message d = msg) out).

End Report.

Import Report.

(** ** The syntax trees of [go/ast] *)

Module Ast.

(** [token.Token]: the keywords of declarations and the operators. *)
Inductive Token : Type :=
| IMPORT | CONST | TYPE | VAR
| ADD | SUB | MUL | QUO | REM
| AND | OR | XOR | SHL | SHR | AND_NOT
| LAND | LOR | EQL | NEQ | LSS | GTR | LEQ | GEQ
| NOT | ARROW.

(** [ast.Ident]. *)
Record Ident : Type := { NamePos : Z; Name : string }.

(** [ast.Node].  A doc comment ([*ast.CommentGroup], possibly nil) is kept
    as the result of its [Text()] method.  Each node that the analyzer
    asks for its position carries the field that [Pos()] returns for it:
    [ValuePos] for a literal, [TokPos] for a general declaration, the
    position of the [func] keyword for a function declaration, and the
    position of the first name for a specification.  [OtherNode] stands
    for the node kinds that are not listed, with their children in the
    order [ast.Walk] visits them. *)
Inductive Node : Type :=
| IdentNode (id : Ident)
| BasicLit (ValuePos : Z) (Value : string)
| BinaryExpr (X : Node) (Op : Token) (Y : Node)
| UnaryExpr (Op : Token) (X : Node)
| ParenExpr (X : Node)
| CallExpr (Fun : Node) (Args : list Node)
| FuncLit (Type_ : Node) (Body : Node)
| ExprStmt (X : Node)
| BlockStmt (List : list Node)
| ReturnStmt (Results : list Node)
| IfStmt (Init : option Node) (Cond : Node) (Body : Node) (Else : option Node)
| ForStmt (Init : option Node) (Cond : option Node) (Post : option Node) (Body : Node)
| SwitchStmt (Init : option Node) (Tag : option Node) (Body : Node)
| ValueSpec (Doc : option string) (Names : list Ident) (Type_ : option Node)
            (Values : list Node)
| TypeSpec (Doc : option string) (Name : Ident) (Type_ : Node)
| GenDecl (Doc : option string) (TokPos : Z) (Tok : Token) (Lparen : Z)
          (Specs : list Node)
| FuncDecl (Doc : option string) (Recv : option Node) (Name : Ident) (Func : Z)
           (Type_ : Node) (Body : option Node)
| FileNode (Doc : option string) (Name : Ident) (Decls : list Node)
| OtherNode (children : list Node).

(** [*ast.File]: [File_Doc], [File_Name] and [File_Decls] are its fields
    [Doc], [Name] and [Decls]; [Name] is the identifier of the [package]
    clause of the file.  [Basename] is the name of the file itself, as
    [pass.Fset] has it, without directory and extension; the analyzer does
    not read it. *)
Record File : Type := {
  Basename : string;
  File_Doc : option string;
  File_Name : Ident;
  File_Decls : list Node
}.

(** A [*ast.File] used as an [ast.Node]. *)
Definition fileNode (f : File) : Node :=
  FileNode (File_Doc f) (File_Name f) (File_Decls f).

(** [ast.Inspect(node, f)]: [f] is called on the node; when it returns
    true the children are walked in the order of [ast.Walk], and [f] is
    called on [nil] afterwards.  Comment groups are left out of the
    children and identifiers that are mere names are too: they have no
    children and the analyzer's callback does nothing on them. *)
Section Inspect.

Variable f : option Node -> Outcome bool.

Fixpoint Walk (n : Node) : Outcome unit :=
  let walkList :=
    fix walkList (l : list Node) : Outcome unit :=
      match l with
      | [] => mret tt
      | c :: l' => Walk c ;; walkList l'
      end in
  let walkOpt := fun o : option Node =>
    match o with
    | Some c => Walk c
    | None => mret tt
    end in
  descend ← f (Some n);
  if descend : bool then
    match n with
    | IdentNode _ | BasicLit _ _ => mret tt
    | BinaryExpr X _ Y => Walk X ;; Walk Y
    | UnaryExpr _ X | ParenExpr X | ExprStmt X => Walk X
    | CallExpr Fun Args => Walk Fun ;; walkList Args
    | FuncLit T Body => Walk T ;; Walk Body
    | BlockStmt l | ReturnStmt l | OtherNode l => walkList l
    | IfStmt Init Cond Body Else =>
        walkOpt Init ;; Walk Cond ;; Walk Body ;; walkOpt Else
    | ForStmt Init Cond Post Body =>
        walkOpt Init ;; walkOpt Cond ;; walkOpt Post ;; Walk Body
    | SwitchStmt Init Tag Body => walkOpt Init ;; walkOpt Tag ;; Walk Body
    | ValueSpec _ _ T Values => walkOpt T ;; walkList Values
    | TypeSpec _ _ T => Walk T
    | GenDecl _ _ _ _ Specs => walkList Specs
    | FuncDecl _ Recv _ _ T Body => walkOpt Recv ;; Walk T ;; walkOpt Body
    | FileNode _ _ Decls => walkList Decls
    end ;;
    f None ;; mret tt
  else mret tt.

Definition Inspect (n : Node) : Outcome unit := Walk n.

End Inspect.

End Ast.

Import Ast.

(** ** The analyzer *)

Module Doculint.

(** [analysis.Pass], as far as the analyzer reads it: [pass.Pkg.Name()]
    and [pass.Files]. *)
Record Pass : Type := { PkgName : string; Files : list File }.

(** *** The messages, as the calls to [fmt.Sprintf] and [pass.Reportf]
    build them *)

Definition msgSeparator (pkg : string) : string :=
  "package " +:+ quoted pkg +:+ " should not contain - or _ in name".
Definition msgLowercase (pkg : string) : string :=
  "package " +:+ quoted pkg +:+ " should be all lowercase".
Definition msgPackageNoComment (pkg : string) : string :=
  "package " +:+ quoted pkg +:+ " has no comment associated with it in "
  +:+ quoted (pkg +:+ ".go").
Definition expectedPrefix (pkg : string) : string := "Package " +:+ pkg.
Definition msgPackagePrefix (pkg : string) : string :=
  "comment for package " +:+ quoted pkg +:+ " should begin with "
  +:+ quoted (expectedPrefix pkg).
Definition msgNoSameNameFile (pkg : string) : string :=
  "package " +:+ quoted pkg
  +:+ " has no file with the same name containing package comment".
Definition msgFuncNoComment (name : string) : string :=
  "function " +:+ quoted name +:+ " has no comment associated with it".
Definition msgFuncPrefix (name : string) : string :=
  "comment for function " +:+ quoted name +:+ " should begin with "
  +:+ quoted name.
Definition msgLiteral : string := "literal found in conditional".
Definition msgConstBlock : string :=
  "constant block has no comment associated with it".
Definition msgConstSeparate (names : list string) : string :=
  "constants " +:+ quoted (Join names ", ")
  +:+ " should be separated and each have a comment associated with them".
Definition msgConstNoComment (name : string) : string :=
  "constant " +:+ quoted name +:+ " has no comment associated with it".
Definition msgConstPrefix (name : string) : string :=
  "comment for constant " +:+ quoted name +:+ " should begin with "
  +:+ quoted name.
Definition msgTypeBlock : string :=
  "type block has no comment associated with it".
Definition msgTypeNoComment (name : string) : string :=
  "type " +:+ quoted name +:+ " has no comment associated with it".
Definition msgTypePrefix (name : string) : string :=
  "comment for type " +:+ quoted name +:+ " should begin with "
  +:+ quoted name.

(** *** [validatePackageName] *)

Definition validatePackageName (pkg : string) : string :=
  if ContainsAny pkg "_-" then msgSeparator pkg
  else if negb (String.eqb pkg (ToLower pkg)) then msgLowercase pkg
  else EmptyString.

(** *** The callback given to [ast.Inspect] *)

(** The operand test of the [*ast.IfStmt] case: the type assertion of an
    operand to [*ast.BasicLit] and, when it holds, the report at the
    position of the literal. *)
Definition reportLiteral (e : Node) : Outcome unit :=
  match e with
  | BasicLit ValuePos _ => Reportf ValuePos msgLiteral
  | _ => mret tt
  end.

(** [vs.Pos()] of a [*ast.ValueSpec]: [vs.Names[0].Pos()]. *)
Definition ValueSpec_Pos (Names : list Ident) : Outcome Z :=
  match Names with
  | [] => panic
  | id :: _ => mret (NamePos id)
  end.

(** The body of the loop over [expr.Specs] of a [const] declaration;
    [declDoc] and [Lparen] are [expr.Doc] and [expr.Lparen]. *)
Definition constSpec (declDoc : option string) (Lparen : Z) (spec : Node)
  : Outcome unit :=
  match spec with
  | ValueSpec vsDoc Names _ _ =>
      if (1 <? List.length Names)%nat then
        pos ← ValueSpec_Pos Names;
        Reportf pos (msgConstSeparate (map Name Names))
      else
        match Names with
        | [] => panic
        | id :: _ =>
            let name := Name id in
            let doc := if negb (IsValid Lparen) then declDoc else vsDoc in
            match doc with
            | None => Reportf (NamePos id) (msgConstNoComment name)
            | Some text =>
                if negb (HasPrefix (TrimSpace text) name)
                then Reportf (NamePos id) (msgConstPrefix name)
                else mret tt
            end
        end
  | _ => mret tt
  end.

(** The body of the loop over [expr.Specs] of a [type] declaration. *)
Definition typeSpec (declDoc : option string) (Lparen : Z) (spec : Node)
  : Outcome unit :=
  match spec with
  | TypeSpec tsDoc id _ =>
      let doc := if negb (IsValid Lparen) then declDoc else tsDoc in
      match doc with
      | None => Reportf (NamePos id) (msgTypeNoComment (Name id))
      | Some text =>
          if negb (HasPrefix (TrimSpace text) (Name id))
          then Reportf (NamePos id) (msgTypePrefix (Name id))
          else mret tt
      end
  | _ => mret tt
  end.

(** The block-level test of both kinds of declaration. *)
Definition blockCheck (Doc : option string) (TokPos Lparen : Z) (msg : string)
  : Outcome unit :=
  if IsValid Lparen then
    match Doc with
    | None => Reportf TokPos msg
    | Some _ => mret tt
    end
  else mret tt.

(** The function literal of [doculint], on a node that is not nil; [pkg]
    is [pass.Pkg.Name()]. *)
Definition visit (pkg : string) (n : Node) : Outcome bool :=
  match n with
  | FuncDecl Doc _ id Func _ _ =>
      if String.eqb pkg "main" && String.eqb (Name id) "main" then mret true
      else if String.eqb (Name id) "init" then mret true
      else
        match Doc with
        | None => Reportf Func (msgFuncNoComment (Name id)) ;; mret true
        | Some text =>
            if negb (HasPrefix (TrimSpace text) (Name id))
            then Reportf Func (msgFuncPrefix (Name id)) ;; mret true
            else mret true
        end
  | IfStmt _ Cond _ _ =>
      match Cond with
      | BinaryExpr X _ Y => reportLiteral X ;; reportLiteral Y ;; mret true
      | _ => mret true
      end
  | GenDecl Doc TokPos Tok Lparen Specs =>
      match Tok with
      | CONST =>
          blockCheck Doc TokPos Lparen msgConstBlock ;;
          forRange Specs (constSpec Doc Lparen) ;;
          mret true
      | TYPE =>
          blockCheck Doc TokPos Lparen msgTypeBlock ;;
          forRange Specs (typeSpec Doc Lparen) ;;
          mret true
      | _ => mret true
      end
  | _ => mret true
  end.

(** The function literal on any argument: on nil the type switch takes
    its default case. *)
Definition callback (pkg : string) (n : option Node) : Outcome bool :=
  match n with
  | Some n => visit pkg n
  | None => mret true
  end.

(** *** [doculint] *)

(** Lines 33 to 54: the package comment test of one file, on the map
    [packageWithSameNameFile]. *)
Definition packageDoc (pkg : string) (file : File) (m : gmap string bool)
  : Outcome (gmap string bool) :=
  if negb (String.eqb pkg "main") then
    let m1 := match m !! pkg with
              | Some _ => m
              | None => <[pkg := false]> m
              end in
    if String.eqb (Name (File_Name file)) pkg then
      let m2 := <[pkg := true]> m1 in
      match File_Doc file with
      | None => Reportf 0 (msgPackageNoComment pkg) ;; mret m2
      | Some text =>
          if negb (HasPrefix (TrimSpace text) (expectedPrefix pkg))
          then Reportf 0 (msgPackagePrefix pkg) ;; mret m2
          else mret m2
      end
    else mret m1
  else mret m.

(** The body of the loop over [pass.Files]. *)
Definition perFile (pkg : string) (file : File) (m : gmap string bool)
  : Outcome (gmap string bool) :=
  m' ← packageDoc pkg file m;
  Inspect (callback pkg) (fileNode file) ;;
  mret m'.

Fixpoint forFiles (pkg : string) (files : list File) (m : gmap string bool)
  : Outcome (gmap string bool) :=
  match files with
  | [] => mret m
  | file :: files' => m' ← perFile pkg file m; forFiles pkg files' m'
  end.

(** Lines 167 to 171: the loop over the map.  Go leaves the order of
    [range] over a map open; [map_to_list] fixes one. *)
Definition finalize (m : gmap string bool) : Outcome unit :=
  forRange (map_to_list m) (fun e =>
    if negb (default false (m !! e.1))
    then Reportf 0 (msgNoSameNameFile e.1)
    else mret tt).

(** [pass.Reportf(0, msg)] takes [msg] as its format; the message is
    [msg] itself as long as it holds no verb, and a package name holds no
    percent sign. *)
Definition doculint (pass : Pass) : Outcome unit :=
  let pkg := PkgName pass in
  (let msg := validatePackageName pkg in
   if negb (String.eqb msg EmptyString) then Reportf 0 msg else mret tt) ;;
  m ← forFiles pkg (Files pass) ∅;
  finalize m.

End Doculint.

Import Doculint.

(** ** The vocabulary of the properties *)

(** A byte occurs in a string. *)
Fixpoint InString (c : ascii) (s : string) : Prop :=
  match s with
  | EmptyString => False
  | String d s' => c = d \/ InString c s'
  end.

(** A field that may be nil, as the list of the nodes it holds. *)
Definition optList (o : option Node) : list Node :=
  match o with
  | Some c => [c]
  | None => []
  end.

(** The children of a node, in the order [ast.Walk] visits them. *)
Definition children (n : Node) : list Node :=
  match n with
  | IdentNode _ | BasicLit _ _ => []
  | BinaryExpr X _ Y => [X; Y]
  | UnaryExpr _ X | ParenExpr X | ExprStmt X => [X]
  | CallExpr Fun Args => Fun :: Args
  | FuncLit T Body => [T; Body]
  | BlockStmt l | ReturnStmt l | OtherNode l => l
  | IfStmt Init Cond Body Else => optList Init ++ [Cond; Body] ++ optList Else
  | ForStmt Init Cond Post Body =>
      optList Init ++ optList Cond ++ optList Post ++ [Body]
  | SwitchStmt Init Tag Body => optList Init ++ optList Tag ++ [Body]
  | ValueSpec _ _ T Values => optList T ++ Values
  | TypeSpec _ _ T => [T]
  | GenDecl _ _ _ _ Specs => Specs
  | FuncDecl _ Recv _ _ T Body => optList Recv ++ [T] ++ optList Body
  | FileNode _ _ Decls => Decls
  end.

(** A run of the callback that, when it returns, returns true. *)
Definition goesOn (o : Outcome bool) : Prop :=
  forall b out, o = Returned b out -> b = true.

(** What the test of one operand reports: a diagnostic at the literal when
    the operand is a basic literal, nothing for any other expression. *)
Inductive operandReport : Node -> list Diagnostic -> Prop :=
| operand_literal (p : Z) (v : string) :
    operandReport (BasicLit p v) [ {| Pos := p; Message := msgLiteral |} ]
| operand_other (e : Node) :
    (forall p v, e <> BasicLit p v) -> operandReport e [].

(** A diagnostic whose message does not start with a given word.  The
    messages are told apart by their first words: [l] for the literal rule,
    [constant b] and [type b] for the two block messages. *)
Definition lacks (tag : string) (d : Diagnostic) : Prop :=
  HasPrefix (Message d) tag = false.

(** A diagnostic of a rule on declarations. *)
Definition aboutDecl (d : Diagnostic) : Prop := lacks "l" d.


(** The test of line 42: [file.Name.Name == pass.Pkg.Name()].  [file.Name]
    is the identifier of the [package] clause. *)
Definition clauseMatches (pkg : string) (file : File) : bool :=
  String.eqb (Name (File_Name file)) pkg.

(** What lines 45 to 52 report for the doc comment of a file. *)
Definition packageComment (pkg : string) (doc : option string) : list Diagnostic :=
  match doc with
  | None => [ {| Pos := 0; Message := msgPackageNoComment pkg |} ]
  | Some text =>
      if HasPrefix (TrimSpace text) (expectedPrefix pkg) then []
      else [ {| Pos := 0; Message := msgPackagePrefix pkg |} ]
  end.


(** Two files of a package [mypkg], [mypkg.go] and [helpers.go], with a
    given package comment and no declaration.  Both begin with
    [package mypkg]. *)
Definition mypkg_go (doc : option string) : File :=
  {| Basename := "mypkg"; File_Doc := doc;
     File_Name := {| NamePos := 9; Name := "mypkg" |}; File_Decls := [] |}.

Definition helpers_go (doc : option string) : File :=
  {| Basename := "helpers"; File_Doc := doc;
     File_Name := {| NamePos := 109; Name := "mypkg" |}; File_Decls := [] |}.

(** A node of a tree: the tree itself, or a node of one of its children. *)
Inductive inTree : Node -> Node -> Prop :=
| inTree_self (n : Node) : inTree n n
| inTree_child (x c n : Node) : c ∈ children n -> inTree x c -> inTree x n.

(** A constant specification without a name, which a parser does not
    produce. *)
Definition nameless (spec : Node) : bool :=
  match spec with
  | ValueSpec _ [] _ _ => true
  | _ => false
  end.


(** The bytes of a string are ASCII. *)
Fixpoint isASCII (s : string) : bool :=
  match s with
  | EmptyString => true
  | String c s' => (nat_of_ascii c <? 128)%nat && isASCII s'
  end.

(** The bytes of a string are ASCII white space. *)
Fixpoint isBlank (s : string) : bool :=
  match s with
  | EmptyString => true
  | String c s' => space1 c && isBlank s'
  end.

(** What [doculint] reports about the name of the package. *)
Definition namingReport (pkg : string) : list Diagnostic :=
  if String.eqb (validatePackageName pkg) EmptyString then []
  else [ {| Pos := 0; Message := validatePackageName pkg |} ].



(** A node of a kind no rule is about: not a function declaration, not an
    [if] statement, not a general declaration. *)
Definition plain (n : Node) : bool :=
  match n with
  | FuncDecl _ _ _ _ _ _ | IfStmt _ _ _ _ | GenDecl _ _ _ _ _ => false
  | _ => true
  end.

(** ** The string functions on examples *)

Example TrimSpace_ascii :
  TrimSpace (bytes [32; 9; 102; 111; 111; 32; 98; 10; 10]%nat) = "foo b".
Proof. reflexivity. Qed.

Example TrimSpace_nbsp :
  TrimSpace (bytes [194; 160; 102; 226; 128; 137; 32]%nat) = "f".
Proof. reflexivity. Qed.

Example TrimSpace_lone_continuation :
  TrimSpace (bytes [133; 102; 133]%nat) = bytes [133; 102; 133]%nat.
Proof. reflexivity. Qed.

(** ** Properties of the string functions *)

Section StringFacts.

Lemma append_inj_l (p s t : string) : p +:+ s = p +:+ t -> s = t.
Proof.
  induction p as [|c p IH]; simpl; intros H; [exact H|].
  apply IH. now inversion H.
Qed.



Lemma lowerByte_fixed (c : ascii) : lowerByte c = c <-> isUpper c = false.
Proof.
  unfold lowerByte. destruct (isUpper c) eqn:Hu; split; try congruence; try reflexivity.
  intros H. exfalso. unfold isUpper in Hu.
  apply andb_true_iff in Hu as [H1 H2].
  apply Nat.leb_le in H1, H2.
  apply (f_equal nat_of_ascii) in H.
  rewrite nat_ascii_embedding in H by lia. lia.
Qed.

Lemma ToLower_fixed (s : string) :
  ToLower s = s <-> forall c, InString c s -> isUpper c = false.
Proof.
  induction s as [|d s IH]; simpl.
  - split; [intros _ c [] | reflexivity].
  - split.
    + intros H. injection H as Hd Hs. intros c [->|Hc].
      * apply lowerByte_fixed, Hd.
      * apply IH; assumption.
    + intros H. f_equal.
      * apply lowerByte_fixed, H. now left.
      * apply IH. intros c Hc. apply H. now right.
Qed.

Lemma HasPrefix_spec (s p : string) :
  HasPrefix s p = true <-> exists r, s = p +:+ r.
Proof.
  revert s. induction p as [|c p IH]; intros s; simpl.
  - split; [intros _; now exists s | reflexivity].
  - destruct s as [|d s].
    + split; [discriminate | intros (r & Hr); discriminate].
    + destruct (Ascii.eqb_spec d c) as [->|Hne].
      * rewrite IH. split; intros (r & Hr); exists r; [now rewrite Hr | now inversion Hr].
      * split; [discriminate | intros (r & Hr); inversion Hr; contradiction].
Qed.

(** Strings with different prefixes of one length are different. *)
Lemma HasPrefix_differ (s t p : string) :
  HasPrefix s p = true -> HasPrefix t p = false -> s <> t.
Proof. intros Hs Ht ->. congruence. Qed.

End StringFacts.

(** ** Properties of the effect of reporting *)

Section OutcomeFacts.

Context {A B C : Type}.

Lemma bind_Returned (a : A) (out : list Diagnostic) (k : A -> Outcome B) :
  Returned a out ≫= k =
  match k a with
  | Returned b out' => Returned b (out ++ out')
  | Panicked out' => Panicked (out ++ out')
  end.
Proof. reflexivity. Qed.

Lemma bind_ret_l (a : A) (k : A -> Outcome B) : mret a ≫= k = k a.
Proof. unfold mret, Outcome_ret. rewrite bind_Returned. now destruct (k a). Qed.

Lemma bind_ret_r (o : Outcome A) : o ≫= mret = o.
Proof.
  destruct o as [a out|out]; [|reflexivity].
  unfold mbind, Outcome_bind, mret, Outcome_ret. now rewrite app_nil_r.
Qed.

Lemma bind_assoc (o : Outcome A) (k : A -> Outcome B) (h : B -> Outcome C) :
  (o ≫= k) ≫= h = o ≫= (fun a => k a ≫= h).
Proof.
  destruct o as [a out|out]; [|reflexivity].
  unfold mbind, Outcome_bind.
  destruct (k a) as [b out'|out']; [|reflexivity].
  destruct (h b); now rewrite app_assoc.
Qed.

Lemma reported_bind (o : Outcome A) (k : A -> Outcome B) :
  reported (o ≫= k) =
  match o with
  | Returned a out => (out ++ reported (k a))%list
  | Panicked out => out
  end.
Proof.
  destruct o as [a out|out]; [|reflexivity].
  unfold mbind, Outcome_bind. now destruct (k a).
Qed.

End OutcomeFacts.

Lemma bind_unit_r (o : Outcome unit) : (o ;; mret tt) = o.
Proof.
  transitivity (o ≫= mret); [|apply bind_ret_r].
  destruct o as [[] out|out]; reflexivity.
Qed.

Lemma forRange_app {A} (l1 l2 : list A) (body : A -> Outcome unit) :
  forRange (l1 ++ l2) body = (forRange l1 body ;; forRange l2 body).
Proof.
  induction l1 as [|x l1 IH].
  - symmetry. apply (bind_ret_l tt (fun _ => forRange l2 body)).
  - change (forRange ((x :: l1) ++ l2) body)
      with (body x ;; forRange (l1 ++ l2) body).
    rewrite IH. symmetry. apply bind_assoc.
Qed.

Lemma count_app (msg : string) (l1 l2 : list Diagnostic) :
  count msg (l1 ++ l2) = (count msg l1 + count msg l2)%nat.
Proof. unfold count. now rewrite filter_app, length_app. Qed.

Lemma bind_ext {A B} (o : Outcome A) (k k' : A -> Outcome B) :
  (forall a, k a = k' a) -> o ≫= k = o ≫= k'.
Proof.
  intros H. destruct o as [a out|out]; [|reflexivity].
  unfold mbind, Outcome_bind. now rewrite H.
Qed.

Lemma forRange_one {A} (x : A) (body : A -> Outcome unit) :
  forRange [x] body = body x.
Proof. apply bind_unit_r. Qed.

(** ** The traversal *)

Section WalkFacts.

Variable f : option Node -> Outcome bool.

Lemma walkList_forRange (l : list Node) :
  (fix walkList (l : list Node) : Outcome unit :=
     match l with
     | [] => mret tt
     | c :: l' => Walk f c ;; walkList l'
     end) l = forRange l (Walk f).
Proof. induction l as [|c l IH]; [reflexivity|]. simpl. now rewrite IH. Qed.

Lemma walkOpt_forRange (o : option Node) :
  match o with
  | Some c => Walk f c
  | None => mret tt
  end = forRange (optList o) (Walk f).
Proof. destruct o; [symmetry; apply forRange_one | reflexivity]. Qed.

Lemma forRange_cons (c : Node) (l : list Node) :
  forRange (c :: l) (Walk f) = (Walk f c ;; forRange l (Walk f)).
Proof. reflexivity. Qed.

Lemma forRange_two (c d : Node) :
  forRange [c; d] (Walk f) = (Walk f c ;; Walk f d).
Proof. rewrite forRange_cons. now rewrite forRange_one. Qed.

(** One step of [ast.Walk]. *)
Lemma Walk_eq (n : Node) :
  Walk f n =
  (descend ← f (Some n);
   if descend : bool
   then forRange (children n) (Walk f) ;; f None ;; mret tt
   else mret tt).
Proof.
  destruct n; simpl Walk; cbn [children]; apply bind_ext; intros [|];
    try reflexivity;
    rewrite ?walkList_forRange, ?walkOpt_forRange;
    rewrite ?forRange_app, ?forRange_one, ?forRange_two, ?forRange_cons;
    rewrite ?bind_assoc; try reflexivity.
Qed.

End WalkFacts.

(** ** The callback always asks [ast.Inspect] to go on *)

Lemma goesOn_ret : goesOn (mret true).
Proof. intros b out H. now inversion H. Qed.

Lemma goesOn_bind {A} (o : Outcome A) (k : A -> Outcome bool) :
  (forall a, goesOn (k a)) -> goesOn (o ≫= k).
Proof.
  intros Hk b out. destruct o as [a out1|out1]; [|discriminate].
  unfold mbind, Outcome_bind. destruct (k a) as [b' out2|out2] eqn:Hka; [|discriminate].
  intros H. inversion H; subst. exact (Hk a _ _ Hka).
Qed.

Ltac goes_on :=
  repeat first
    [ apply goesOn_ret
    | apply goesOn_bind; intros ?
    | match goal with
      | |- goesOn (if ?c then _ else _) => destruct c
      | |- goesOn (match ?x with _ => _ end) => destruct x
      end ].

Lemma visit_goesOn (pkg : string) (n : Node) : goesOn (visit pkg n).
Proof. unfold visit. goes_on. Qed.

Lemma callback_goesOn (pkg : string) (n : option Node) : goesOn (callback pkg n).
Proof. destruct n; [apply visit_goesOn | apply goesOn_ret]. Qed.

(** The traversal of a node by the analyzer: the callback on the node, then
    the traversal of the children. *)
Lemma Inspect_visit (pkg : string) (n : Node) :
  Inspect (callback pkg) n =
  (visit pkg n ;; forRange (children n) (Inspect (callback pkg))).
Proof.
  unfold Inspect. rewrite Walk_eq. cbn [callback].
  pose proof (visit_goesOn pkg n) as Hgo.
  destruct (visit pkg n) as [b out|out]; [|reflexivity].
  rewrite (Hgo b out eq_refl).
  rewrite !bind_Returned.
  change (mret true ≫= (fun _ : bool => mret tt)) with (mret tt : Outcome unit).
  now rewrite bind_unit_r.
Qed.

(** ** The messages are told apart by their first words *)

Lemma quoted_inj_tail (s a b : string) : quoted s +:+ a = quoted s +:+ b -> a = b.
Proof. apply append_inj_l. Qed.

Lemma msgSeparator_lowercase (pkg : string) : msgSeparator pkg <> msgLowercase pkg.
Proof.
  unfold msgSeparator, msgLowercase. intros H.
  apply append_inj_l, quoted_inj_tail in H. discriminate H.
Qed.

Lemma msgFunc_differ (name name' : string) :
  msgFuncPrefix name <> msgFuncNoComment name'.
Proof. now apply (HasPrefix_differ _ _ "c"). Qed.

(** * Properties *)

(** ** The naming validator *)



(** ** Function declarations *)

Lemma visit_FuncDecl_exempt pkg Doc Recv id Func T Body :
  (pkg = "main" /\ Name id = "main") \/ Name id = "init" ->
  visit pkg (FuncDecl Doc Recv id Func T Body) = Returned true [].
Proof.
  intros [[Hp Hm] | Hi]; cbn [visit].
  - now rewrite Hp, Hm.
  - rewrite Hi. now destruct (String.eqb pkg "main" && String.eqb "init" "main").
Qed.

Lemma visit_FuncDecl_checked pkg Doc Recv id Func T Body :
  ~ ((pkg = "main" /\ Name id = "main") \/ Name id = "init") ->
  visit pkg (FuncDecl Doc Recv id Func T Body) =
  match Doc with
  | None => Returned true [ {| Pos := Func; Message := msgFuncNoComment (Name id) |} ]
  | Some text =>
      if HasPrefix (TrimSpace text) (Name id)
      then Returned true []
      else Returned true [ {| Pos := Func; Message := msgFuncPrefix (Name id) |} ]
  end.
Proof.
  intros Hn. cbn [visit].
  destruct (String.eqb_spec pkg "main") as [Hp|Hp];
    destruct (String.eqb_spec (Name id) "main") as [Hm|Hm];
    destruct (String.eqb_spec (Name id) "init") as [Hi|Hi];
    try (exfalso; apply Hn; tauto); cbn [andb];
    destruct Doc as [text|]; try reflexivity;
    destruct (HasPrefix (TrimSpace text) (Name id)); reflexivity.
Qed.

(** C4.  A function declaration that is neither [main] of package [main]
    nor named [init] has one of three outcomes, decided by its doc comment:
    no diagnostic when the trimmed comment starts with the name, the
    [should begin with] diagnostic alone when there is a comment that does
    not, the [no comment] diagnostic alone when there is none; the two
    messages differ.  The two exempted kinds get no diagnostic.  In every
    case the callback asks for the children, so that the traversal of an
    exempted declaration is the traversal of its children, and what the
    traversal of its body reports is reported. *)
Theorem funcDecl_outcomes (pkg : string) (Doc : option string) (Recv : option Node)
    (id : Ident) (Func : Z) (T : Node) (Body : option Node) :
  let n := FuncDecl Doc Recv id Func T Body in
  let exempt := (pkg = "main" /\ Name id = "main") \/ Name id = "init" in
  (~ exempt ->
     match Doc with
     | Some text =>
         if HasPrefix (TrimSpace text) (Name id)
         then visit pkg n = Returned true []
         else visit pkg n =
              Returned true [ {| Pos := Func; Message := msgFuncPrefix (Name id) |} ]
     | None =>
         visit pkg n =
         Returned true [ {| Pos := Func; Message := msgFuncNoComment (Name id) |} ]
     end)
  /\ msgFuncPrefix (Name id) <> msgFuncNoComment (Name id)
  /\ (exempt -> visit pkg n = Returned true [])
  /\ (exempt ->
      Inspect (callback pkg) n = forRange (children n) (Inspect (callback pkg)))
  /\ (forall body, Body = Some body ->
      returns (forRange (optList Recv ++ [T]) (Inspect (callback pkg))) = true ->
      exists before,
        reported (Inspect (callback pkg) n)
        = (before ++ reported (Inspect (callback pkg) body))%list).
Proof.
  intros n exempt. repeat split.
  - intros Hn. unfold n. rewrite visit_FuncDecl_checked by exact Hn.
    destruct Doc as [text|]; [|reflexivity].
    now destruct (HasPrefix (TrimSpace text) (Name id)).
  - apply msgFunc_differ.
  - apply visit_FuncDecl_exempt.
  - intros He. rewrite Inspect_visit. subst n.
    rewrite visit_FuncDecl_exempt by exact He.
    apply (bind_ret_l true).
  - intros body -> Hret. rewrite Inspect_visit.
    pose proof (visit_goesOn pkg n) as Hgo.
    assert (Hv : returns (visit pkg n) = true).
    { unfold n, visit. repeat first
        [ reflexivity
        | match goal with
          | |- context [if ?c then _ else _] => destruct c
          | |- context [match ?x with _ => _ end] => destruct x
          end ]. }
    destruct (visit pkg n) as [b out|out]; [|discriminate Hv].
    subst n. cbn [children optList].
    rewrite app_assoc, forRange_app, forRange_one.
    destruct (forRange (optList Recv ++ [T]) (Inspect (callback pkg)))
      as [[] out1|out1]; [|discriminate Hret].
    rewrite !reported_bind. exists (out ++ out1)%list.
    now rewrite app_assoc.
Qed.

Lemma funcDecl_outcomes_witness :
  visit "mypkg" (FuncDecl None None {| NamePos := 6; Name := "run" |} 1
                   (OtherNode []) None)
  = Returned true [ {| Pos := 1; Message := msgFuncNoComment "run" |} ]
  /\ reported (Inspect (callback "main")
       (FuncDecl None None {| NamePos := 6; Name := "main" |} 1 (OtherNode [])
          (Some (BlockStmt
             [IfStmt None
                (BinaryExpr (IdentNode {| NamePos := 20; Name := "x" |}) EQL
                            (BasicLit 25 "5"))
                (BlockStmt []) None]))))
     = [ {| Pos := 25; Message := msgLiteral |} ].
Proof.
  split.
  - apply (funcDecl_outcomes "mypkg" None None {| NamePos := 6; Name := "run" |}).
    intros [[H _] | H]; discriminate H.
  - rewrite (proj1 (proj2 (proj2 (proj2
      (funcDecl_outcomes "main" None None {| NamePos := 6; Name := "main" |} 1
         (OtherNode []) (Some (BlockStmt
             [IfStmt None
                (BinaryExpr (IdentNode {| NamePos := 20; Name := "x" |}) EQL
                            (BasicLit 25 "5"))
                (BlockStmt []) None]))))))).
    + reflexivity.
    + left. split; reflexivity.
Defined.

(** ** Literals in the condition of an [if] statement *)

Lemma reportLiteral_operandReport (e : Node) :
  exists d, reportLiteral e = Returned tt d /\ operandReport e d.
Proof.
  destruct e;
    try (exists []; split; [reflexivity | constructor; discriminate]).
  eexists. split; [reflexivity | constructor].
Qed.

Lemma visit_IfStmt_binary pkg Init X Op Y Body Else :
  exists dx dy,
    visit pkg (IfStmt Init (BinaryExpr X Op Y) Body Else) = Returned true (dx ++ dy)
    /\ operandReport X dx /\ operandReport Y dy.
Proof.
  destruct (reportLiteral_operandReport X) as (dx & Hx & Rx).
  destruct (reportLiteral_operandReport Y) as (dy & Hy & Ry).
  exists dx, dy. split; [|split; assumption].
  cbn [visit]. rewrite Hx, Hy. cbn. now rewrite app_nil_r.
Qed.

(** C5.  On an [if] statement whose condition is a binary expression the
    callback reports, in the order of the operands, one [literal found in
    conditional] diagnostic for each operand that is a basic literal, at the
    position of that literal, and nothing for an operand of any other kind
    (identifier, call, parenthesized or nested expression).  So [x == 5]
    gives one diagnostic, [x == y] none and [3 == 5] two. *)
Theorem literal_operands (pkg : string) (Init : option Node) (X : Node) (Op : Token)
    (Y Body : Node) (Else : option Node) :
  (exists dx dy,
      visit pkg (IfStmt Init (BinaryExpr X Op Y) Body Else) = Returned true (dx ++ dy)
      /\ operandReport X dx /\ operandReport Y dy)
  /\ (forall x p v,
      visit pkg (IfStmt Init (BinaryExpr (IdentNode x) Op (BasicLit p v)) Body Else)
      = Returned true [ {| Pos := p; Message := msgLiteral |} ])
  /\ (forall x y,
      visit pkg (IfStmt Init (BinaryExpr (IdentNode x) Op (IdentNode y)) Body Else)
      = Returned true [])
  /\ (forall p v q w,
      visit pkg (IfStmt Init (BinaryExpr (BasicLit p v) Op (BasicLit q w)) Body Else)
      = Returned true [ {| Pos := p; Message := msgLiteral |};
                        {| Pos := q; Message := msgLiteral |} ])
  /\ (forall x p v q w Op' g,
      visit pkg (IfStmt Init
                   (BinaryExpr (BinaryExpr (IdentNode x) Op' (BasicLit p v)) Op
                               (CallExpr g [ParenExpr (BasicLit q w)]))
                   Body Else)
      = Returned true []).
Proof.
  split; [apply visit_IfStmt_binary|].
  repeat split; intros; reflexivity.
Qed.

(** ** Acceptance of a comment by its prefix *)

Lemma visit_FuncDecl_prefix pkg text Recv id Func T Body :
  HasPrefix (TrimSpace text) (Name id) = true ->
  visit pkg (FuncDecl (Some text) Recv id Func T Body) = Returned true [].
Proof.
  intros H. cbn [visit]. rewrite H.
  destruct (String.eqb pkg "main" && String.eqb (Name id) "main"); [reflexivity|].
  now destruct (String.eqb (Name id) "init").
Qed.

(** C9.  The tests of the comment of a function, of a constant and of a type
    ask for the name as a prefix of the trimmed text, not as its first word:
    whenever the trimmed text is the name followed by anything, no diagnostic
    is reported.  A function [foo] whose comment begins with [foobar] is
    accepted. *)
Theorem prefix_not_word (pkg text name rest : string)
    (H : TrimSpace text = name +:+ rest) :
  (forall Recv id Func T Body, Name id = name ->
      visit pkg (FuncDecl (Some text) Recv id Func T Body) = Returned true [])
  /\ (forall vsDoc declDoc Lparen id T Values, Name id = name ->
      (if IsValid Lparen then vsDoc else declDoc) = Some text ->
      constSpec declDoc Lparen (ValueSpec vsDoc [id] T Values) = Returned tt [])
  /\ (forall tsDoc declDoc Lparen id T, Name id = name ->
      (if IsValid Lparen then tsDoc else declDoc) = Some text ->
      typeSpec declDoc Lparen (TypeSpec tsDoc id T) = Returned tt [])
  /\ (forall Recv pos Func T Body,
      visit pkg (FuncDecl (Some " foobar does the work") Recv
                   {| NamePos := pos; Name := "foo" |} Func T Body)
      = Returned true []).
Proof.
  assert (Hp : HasPrefix (TrimSpace text) name = true).
  { apply HasPrefix_spec. now exists rest. }
  split; [|split; [|split]]; [| | |intros; now apply visit_FuncDecl_prefix].
  - intros Recv id Func T Body <-. now apply visit_FuncDecl_prefix.
  - intros vsDoc declDoc Lparen id T Values <- Hdoc. cbn [constSpec List.length Nat.ltb Nat.leb].
    destruct (IsValid Lparen); cbn [negb]; rewrite Hdoc, Hp; reflexivity.
  - intros tsDoc declDoc Lparen id T <- Hdoc. cbn [typeSpec].
    destruct (IsValid Lparen); cbn [negb]; rewrite Hdoc, Hp; reflexivity.
Qed.

Lemma prefix_not_word_witness :
  visit "mypkg"
    (FuncDecl (Some "foobar does the work") None {| NamePos := 6; Name := "foo" |} 1
       (OtherNode []) None)
  = Returned true [].
Proof.
  apply (proj1 (prefix_not_word "mypkg" "foobar does the work" "foo"
                  "bar does the work" eq_refl)).
  reflexivity.
Defined.

(** ** The reach of the literal rule *)

Lemma reported_forRange {A} (l : list A) (body : A -> Outcome unit) (d : Diagnostic) :
  d ∈ reported (forRange l body) -> exists x, x ∈ l /\ d ∈ reported (body x).
Proof.
  induction l as [|x l IH]; cbn [forRange].
  - intros H. cbn in H. now apply elem_of_nil in H.
  - rewrite reported_bind. destruct (body x) as [[] out|out] eqn:Hx.
    + intros [H|H]%elem_of_app.
      * exists x. rewrite Hx. split; [left | exact H].
      * destruct (IH H) as (y & Hy & Hd). exists y. split; [now right | exact Hd].
    + intros H. exists x. rewrite Hx. split; [left | exact H].
Qed.

Lemma lacks_differ (tag : string) (d : Diagnostic) (msg : string) :
  HasPrefix msg tag = true -> lacks tag d -> Message d <> msg.
Proof. intros Hm H E. unfold lacks in H. rewrite E in H. congruence. Qed.

Lemma aboutDecl_not_literal (d : Diagnostic) :
  aboutDecl d -> Message d <> msgLiteral.
Proof. now apply lacks_differ. Qed.

Lemma blockCheck_aboutDecl Doc TokPos Lparen msg d :
  HasPrefix msg "l" = false ->
  d ∈ reported (blockCheck Doc TokPos Lparen msg) -> aboutDecl d.
Proof.
  intros Hm H. unfold blockCheck in H.
  destruct (IsValid Lparen), Doc; cbn in H;
    try (now apply elem_of_nil in H).
  apply list_elem_of_singleton in H. now subst.
Qed.

Lemma constSpec_lacks tag declDoc Lparen spec d :
  tag = "l" \/ tag = "constant b" ->
  d ∈ reported (constSpec declDoc Lparen spec) -> lacks tag d.
Proof.
  intros Ht H. unfold constSpec, ValueSpec_Pos in H.
  destruct spec; try (cbn in H; now apply elem_of_nil in H).
  destruct Names as [|id [|id' Names]]; cbn in H.
  - now apply elem_of_nil in H.
  - destruct (if negb (IsValid Lparen) then declDoc else Doc) as [text|].
    + destruct (negb (HasPrefix (TrimSpace text) (Name id))); cbn in H;
        [apply list_elem_of_singleton in H; subst; now destruct Ht as [-> | ->]
        | now apply elem_of_nil in H].
    + apply list_elem_of_singleton in H. subst. now destruct Ht as [-> | ->].
  - apply list_elem_of_singleton in H. subst. now destruct Ht as [-> | ->].
Qed.

Lemma typeSpec_lacks tag declDoc Lparen spec d :
  tag = "l" \/ tag = "type b" ->
  d ∈ reported (typeSpec declDoc Lparen spec) -> lacks tag d.
Proof.
  intros Ht H. unfold typeSpec in H.
  destruct spec; try (cbn in H; now apply elem_of_nil in H).
  destruct (if negb (IsValid Lparen) then declDoc else Doc) as [text|].
  - destruct (negb (HasPrefix (TrimSpace text) _)); cbn in H;
      [apply list_elem_of_singleton in H; subst; now destruct Ht as [-> | ->]
      | now apply elem_of_nil in H].
  - apply list_elem_of_singleton in H. subst. now destruct Ht as [-> | ->].
Qed.

Lemma constSpec_aboutDecl declDoc Lparen spec d :
  d ∈ reported (constSpec declDoc Lparen spec) -> aboutDecl d.
Proof. apply (constSpec_lacks "l"). now left. Qed.

Lemma typeSpec_aboutDecl declDoc Lparen spec d :
  d ∈ reported (typeSpec declDoc Lparen spec) -> aboutDecl d.
Proof. apply (typeSpec_lacks "l"). now left. Qed.

Lemma visit_literal_source (pkg : string) (n : Node) (d : Diagnostic) :
  d ∈ reported (visit pkg n) -> Message d = msgLiteral ->
  exists Init X Op Y Body Else, n = IfStmt Init (BinaryExpr X Op Y) Body Else.
Proof.
  intros Hd Hm.
  destruct n as [ | | | | | | | | | | Init Cond Body Else | | | | |
                  Doc TokPos Tok Lparen Specs | Doc Recv id Func T Body | | ];
    try (cbn in Hd; now apply elem_of_nil in Hd).
  - destruct Cond; try (cbn in Hd; now apply elem_of_nil in Hd).
    now eexists _, _, _, _, _, _.
  - exfalso. revert Hm. apply aboutDecl_not_literal.
    cbn [visit] in Hd.
    destruct Tok; try (cbn in Hd; now apply elem_of_nil in Hd).
    + rewrite reported_bind in Hd.
      pose proof (blockCheck_aboutDecl Doc TokPos Lparen msgConstBlock d eq_refl) as Hb.
      destruct (blockCheck Doc TokPos Lparen msgConstBlock) as [[] out|out];
        [|now apply Hb].
      apply elem_of_app in Hd as [Hd|Hd]; [now apply Hb|].
      rewrite reported_bind in Hd.
      pose proof (reported_forRange Specs (constSpec Doc Lparen) d) as Hs.
      destruct (forRange Specs (constSpec Doc Lparen)) as [[] out'|out'].
      * cbn in Hd. rewrite app_nil_r in Hd.
        destruct (Hs Hd) as (x & _ & Hx). now apply constSpec_aboutDecl in Hx.
      * destruct (Hs Hd) as (x & _ & Hx). now apply constSpec_aboutDecl in Hx.
    + rewrite reported_bind in Hd.
      pose proof (blockCheck_aboutDecl Doc TokPos Lparen msgTypeBlock d eq_refl) as Hb.
      destruct (blockCheck Doc TokPos Lparen msgTypeBlock) as [[] out|out];
        [|now apply Hb].
      apply elem_of_app in Hd as [Hd|Hd]; [now apply Hb|].
      rewrite reported_bind in Hd.
      pose proof (reported_forRange Specs (typeSpec Doc Lparen) d) as Hs.
      destruct (forRange Specs (typeSpec Doc Lparen)) as [[] out'|out'].
      * cbn in Hd. rewrite app_nil_r in Hd.
        destruct (Hs Hd) as (x & _ & Hx). now apply typeSpec_aboutDecl in Hx.
      * destruct (Hs Hd) as (x & _ & Hx). now apply typeSpec_aboutDecl in Hx.
  - exfalso. revert Hm. apply aboutDecl_not_literal.
    cbn [visit] in Hd.
    destruct (String.eqb pkg "main" && String.eqb (Name id) "main");
      [cbn in Hd; now apply elem_of_nil in Hd|].
    destruct (String.eqb (Name id) "init");
      [cbn in Hd; now apply elem_of_nil in Hd|].
    destruct Doc as [text|].
    + destruct (negb (HasPrefix (TrimSpace text) (Name id))); cbn in Hd;
        [apply list_elem_of_singleton in Hd; now subst | now apply elem_of_nil in Hd].
    + cbn in Hd. apply list_elem_of_singleton in Hd. now subst.
Qed.

(** C10.  The literal rule is the rule of [if] statements alone.  On an
    [if] statement whose condition is a binary expression both operands are
    tested whatever the operator, so that the outcome does not depend on
    it.  An [if] statement with any other condition reports nothing, and
    neither does a [for] or [switch] statement, whatever its condition or
    tag: a [literal found in conditional] diagnostic of the callback always
    comes from an [if] statement with a binary condition.  In all these
    cases the callback returns true, and the traversal of any node is the
    callback on it followed by the traversal of its children. *)
Theorem literal_rule_reach (pkg : string) :
  (forall Init X Op Op' Y Body Else,
      visit pkg (IfStmt Init (BinaryExpr X Op Y) Body Else)
      = visit pkg (IfStmt Init (BinaryExpr X Op' Y) Body Else)
      /\ exists dx dy,
          visit pkg (IfStmt Init (BinaryExpr X Op Y) Body Else)
          = Returned true (dx ++ dy)
          /\ operandReport X dx /\ operandReport Y dy)
  /\ (forall Init Cond Body Else,
      (forall X Op Y, Cond <> BinaryExpr X Op Y) ->
      visit pkg (IfStmt Init Cond Body Else) = Returned true [])
  /\ (forall Init Cond Post Body,
      visit pkg (ForStmt Init Cond Post Body) = Returned true [])
  /\ (forall Init Tag Body,
      visit pkg (SwitchStmt Init Tag Body) = Returned true [])
  /\ (forall n d,
      d ∈ reported (visit pkg n) -> Message d = msgLiteral ->
      exists Init X Op Y Body Else, n = IfStmt Init (BinaryExpr X Op Y) Body Else)
  /\ (forall n,
      Inspect (callback pkg) n
      = (visit pkg n ;; forRange (children n) (Inspect (callback pkg)))).
Proof.
  split; [|split; [|split; [|split; [|split]]]].
  - intros. split; [reflexivity | apply visit_IfStmt_binary].
  - intros Init Cond Body Else Hc. destruct Cond; try reflexivity.
    now destruct (Hc Cond1 Op Cond2).
  - reflexivity.
  - reflexivity.
  - apply visit_literal_source.
  - apply Inspect_visit.
Qed.

Lemma literal_rule_reach_witness :
  visit "mypkg"
    (IfStmt None (CallExpr (IdentNode {| NamePos := 4; Name := "ok" |}) [BasicLit 7 "5"])
       (BlockStmt []) None)
  = Returned true [].
Proof.
  apply (proj1 (proj2 (literal_rule_reach "mypkg"))).
  discriminate.
Defined.

(** ** Constant and type declarations *)


Lemma blockCheck_returns Doc TokPos Lparen msg :
  blockCheck Doc TokPos Lparen msg = Returned tt (reported (blockCheck Doc TokPos Lparen msg)).
Proof. unfold blockCheck. now destruct (IsValid Lparen), Doc. Qed.

Lemma reported_visit_const pkg Doc TokPos Lparen Specs :
  reported (visit pkg (GenDecl Doc TokPos CONST Lparen Specs))
  = (reported (blockCheck Doc TokPos Lparen msgConstBlock)
     ++ reported (forRange Specs (constSpec Doc Lparen)))%list.
Proof.
  cbn [visit]. rewrite blockCheck_returns at 1. rewrite !reported_bind.
  destruct (forRange Specs (constSpec Doc Lparen)) as [[] out|out]; cbn;
    now rewrite ?app_nil_r.
Qed.

Lemma reported_visit_type pkg Doc TokPos Lparen Specs :
  reported (visit pkg (GenDecl Doc TokPos TYPE Lparen Specs))
  = (reported (blockCheck Doc TokPos Lparen msgTypeBlock)
     ++ reported (forRange Specs (typeSpec Doc Lparen)))%list.
Proof.
  cbn [visit]. rewrite blockCheck_returns at 1. rewrite !reported_bind.
  destruct (forRange Specs (typeSpec Doc Lparen)) as [[] out|out]; cbn;
    now rewrite ?app_nil_r.
Qed.



(** C7.  A constant specification with more than one name reports one
    diagnostic, at the position of its first name, whose message lists all
    the names separated by a comma and a space; it reports neither of the
    two per-name messages, and this whatever the comments are.  Inside a
    declaration the specification contributes this one diagnostic between
    those of the specifications before and after it. *)
Theorem joint_names (declDoc vsDoc : option string) (Lparen : Z)
    (Names : list Ident) (T : option Node) (Values : list Node)
    (H : (1 < List.length Names)%nat) :
  let separate := msgConstSeparate (map Name Names) in
  (exists first,
      head Names = Some first
      /\ constSpec declDoc Lparen (ValueSpec vsDoc Names T Values)
         = Returned tt [ {| Pos := NamePos first; Message := separate |} ]
      /\ forall pkg TokPos before after,
          visit pkg (GenDecl declDoc TokPos CONST Lparen
                       (before ++ ValueSpec vsDoc Names T Values :: after))
          = (blockCheck declDoc TokPos Lparen msgConstBlock ;;
             forRange before (constSpec declDoc Lparen) ;;
             Reportf (NamePos first) separate ;;
             forRange after (constSpec declDoc Lparen) ;;
             mret true))
  /\ separate = "constants " +:+ quoted (Join (map Name Names) ", ")
       +:+ " should be separated and each have a comment associated with them"
  /\ (forall name, separate <> msgConstNoComment name)
  /\ (forall name, separate <> msgConstPrefix name).
Proof.
  intros separate.
  destruct Names as [|first [|second Names]]; cbn in H; try lia.
  assert (Hspec : constSpec declDoc Lparen (ValueSpec vsDoc (first :: second :: Names) T Values)
                  = Reportf (NamePos first) separate) by reflexivity.
  split; [|split; [|split]].
  - exists first. split; [reflexivity|]. split; [exact Hspec|].
    intros pkg TokPos before after. cbn [visit].
    rewrite forRange_app. cbn [forRange]. rewrite Hspec.
    rewrite !bind_assoc. reflexivity.
  - reflexivity.
  - intros name. now apply (HasPrefix_differ _ _ "constants").
  - intros name. now apply (HasPrefix_differ _ _ "constants").
Qed.

Lemma joint_names_witness :
  constSpec None 3 (ValueSpec None [ {| NamePos := 10; Name := "a" |};
                                      {| NamePos := 13; Name := "b" |} ] None [])
  = Returned tt
      [ {| Pos := 10;
           Message := "constants " +:+ quoted "a, b"
             +:+ " should be separated and each have a comment associated with them" |} ].
Proof.
  destruct (joint_names None None 3
              [ {| NamePos := 10; Name := "a" |}; {| NamePos := 13; Name := "b" |} ]
              None []) as [(first & Hfirst & Hspec & _) _].
  - simpl. lia.
  - injection Hfirst as <-. exact Hspec.
Defined.





(** ** The package comment *)

Lemma packageDoc_clause (pkg : string) (file : File) (m : gmap string bool) :
  pkg <> "main" ->
  packageDoc pkg file m =
  if clauseMatches pkg file
  then Returned (<[pkg := true]> m) (packageComment pkg (File_Doc file))
  else Returned (match m !! pkg with Some _ => m | None => <[pkg := false]> m end) [].
Proof.
  intros Hp. unfold packageDoc, clauseMatches, packageComment.
  destruct (String.eqb_spec pkg "main") as [E|_]; [contradiction|]. cbn [negb].
  destruct (String.eqb (Name (File_Name file)) pkg); [|reflexivity].
  assert (Hm : <[pkg := true]> (match m !! pkg with
                                | Some _ => m
                                | None => <[pkg := false]> m
                                end) = <[pkg := true]> m).
  { destruct (m !! pkg); [reflexivity | apply insert_insert_eq]. }
  rewrite Hm. destruct (File_Doc file) as [text|]; [|reflexivity].
  now destruct (HasPrefix (TrimSpace text) (expectedPrefix pkg)).
Qed.





(** *** The file name is not what the test reads

    The three statements below run the analyzer on the package [mypkg] with
    the files [mypkg.go] and [helpers.go].  Both files begin with
    [package mypkg], as every file of the package does, so that
    [file.Name.Name] is [mypkg] for both. *)

(** C1.  On [helpers.go], whose name is not the package name, the package
    comment test fires all the same: it sets the flag of the package and,
    the file having no package comment, reports the missing comment.  The
    test of line 42 holds for every file whose [package] clause names the
    package, whatever the file is called. *)
Theorem packageDoc_on_other_file :
  Basename (helpers_go None) <> "mypkg"
  /\ packageDoc "mypkg" (helpers_go None) ∅
     = Returned {[ "mypkg" := true ]}
         [ {| Pos := 0; Message := msgPackageNoComment "mypkg" |} ].
Proof.
  split; [discriminate|].
  rewrite packageDoc_clause by discriminate. cbn. now rewrite insert_empty.
Qed.

(** C2.  The package [mypkg] with the single file [helpers.go], which
    carries the package comment: no file has the name of the package, and
    yet the analyzer reports nothing, the finalization included. *)
Theorem no_same_name_file_unreported :
  let pass := {| PkgName := "mypkg";
                 Files := [helpers_go (Some "Package mypkg helps.")] |} in
  Forall (fun file => Basename file <> PkgName pass) (Files pass)
  /\ doculint pass = Returned tt []
  /\ count (msgNoSameNameFile "mypkg") (reported (doculint pass)) = 0%nat.
Proof.
  cbv zeta. split; [|split].
  - repeat constructor. discriminate.
  - vm_compute. reflexivity.
  - vm_compute. reflexivity.
Qed.

(** C3.  The package [mypkg] with the files [mypkg.go] and [helpers.go],
    neither with a package comment: the missing comment is reported twice,
    once for each file. *)
Theorem package_comment_reported_twice :
  let pass := {| PkgName := "mypkg"; Files := [mypkg_go None; helpers_go None] |} in
  doculint pass
  = Returned tt [ {| Pos := 0; Message := msgPackageNoComment "mypkg" |};
                  {| Pos := 0; Message := msgPackageNoComment "mypkg" |} ]
  /\ count (msgPackageNoComment "mypkg") (reported (doculint pass)) = 2%nat.
Proof.
  cbv zeta. split; vm_compute; reflexivity.
Qed.

(** * Further properties of the analyzer *)

(** ** Returning and panicking *)

Lemma returns_bind {A B} (o : Outcome A) (k : A -> Outcome B) :
  returns (o ≫= k) =
  match o with
  | Returned a _ => returns (k a)
  | Panicked _ => false
  end.
Proof.
  destruct o as [a out|out]; [|reflexivity].
  unfold mbind, Outcome_bind. now destruct (k a).
Qed.

Lemma returns_forRange {A} (l : list A) (body : A -> Outcome unit) :
  returns (forRange l body) = forallb (fun x => returns (body x)) l.
Proof.
  induction l as [|x l IH]; [reflexivity|].
  cbn [forRange forallb]. rewrite returns_bind.
  destruct (body x) as [[] out|out]; [exact IH | reflexivity].
Qed.

Lemma reported_bind_l {A B} (o : Outcome A) (k : A -> Outcome B) (d : Diagnostic) :
  d ∈ reported o -> d ∈ reported (o ≫= k).
Proof.
  rewrite reported_bind. destruct o as [a out|out]; cbn; [|tauto].
  intros H. apply elem_of_app. now left.
Qed.

Lemma reported_bind_r {A B} (o : Outcome A) (k : A -> Outcome B) (a : A)
    (out : list Diagnostic) (d : Diagnostic) :
  o = Returned a out -> d ∈ reported (k a) -> d ∈ reported (o ≫= k).
Proof.
  intros -> H. rewrite reported_bind. apply elem_of_app. now right.
Qed.

Lemma reported_forRange_elem {A} (l : list A) (body : A -> Outcome unit)
    (x : A) (d : Diagnostic) :
  returns (forRange l body) = true ->
  x ∈ l -> d ∈ reported (body x) -> d ∈ reported (forRange l body).
Proof.
  induction l as [|y l IH]; intros Hr Hx Hd; [now apply elem_of_nil in Hx|].
  cbn [forRange] in *. rewrite returns_bind in Hr.
  apply elem_of_cons in Hx as [->|Hx].
  - now apply reported_bind_l.
  - destruct (body y) as [[] out|out] eqn:Hy; [|discriminate].
    eapply reported_bind_r; [reflexivity|]. now apply IH.
Qed.

(** Induction on a tree through the children of its nodes. *)
Lemma Node_children_ind (P : Node -> Prop) :
  (forall n, Forall P (children n) -> P n) -> forall n, P n.
Proof.
  intros H. fix IH 1. intros n. apply H.
  assert (Hopt : forall o : option Node,
             match o with Some c => P c | None => True end ->
             Forall P (optList o)).
  { intros [c|] Hc; [repeat constructor; exact Hc | constructor]. }
  destruct n as [ | | X Op Y | Op X | X | Fun Args | T Body | X | l | l
                | Init Cond Body Else | Init Cond Post Body | Init Tag Body
                | Doc Names T Values | Doc id T | Doc TokPos Tok Lparen Specs
                | Doc Recv id Func T Body | Doc id Decls | l ];
    cbn [children];
    repeat first
      [ apply Forall_nil_2
      | apply Forall_cons; split; [apply IH|]
      | apply Forall_app; split
      | match goal with
        | |- Forall P (optList ?o) =>
            apply Hopt; destruct o; [apply IH | exact I]
        | |- Forall P ?l =>
            induction l; [apply Forall_nil_2 | apply Forall_cons; split; [apply IH | assumption]]
        end ].
Qed.

Lemma returns_constSpec (declDoc : option string) (Lparen : Z) (spec : Node) :
  returns (constSpec declDoc Lparen spec) = negb (nameless spec).
Proof.
  destruct spec as [ | | | | | | | | | | | | | Doc Names T Values | | | | | ];
    try reflexivity.
  destruct Names as [|id [|id' Names]]; cbn; try reflexivity.
  destruct (if negb (IsValid Lparen) then declDoc else Doc) as [text|];
    [|reflexivity].
  now destruct (negb (HasPrefix (TrimSpace text) (Name id))).
Qed.



Lemma returns_Inspect (pkg : string) (n : Node) :
  returns (Inspect (callback pkg) n)
  = returns (visit pkg n)
    && forallb (fun c => returns (Inspect (callback pkg) c)) (children n).
Proof.
  rewrite Inspect_visit, returns_bind.
  destruct (visit pkg n) as [b out|out]; [|reflexivity].
  apply returns_forRange.
Qed.





Lemma returns_finalize (m : gmap string bool) : returns (finalize m) = true.
Proof.
  unfold finalize. rewrite returns_forRange. apply forallb_forall.
  intros e _. now destruct (negb (default false (m !! e.1))).
Qed.


Lemma doculint_eq (pass : Pass) :
  doculint pass =
  (Returned tt (namingReport (PkgName pass)) ;;
   m ← forFiles (PkgName pass) (Files pass) ∅;
   finalize m).
Proof.
  unfold doculint, namingReport. cbv zeta.
  now destruct (String.eqb (validatePackageName (PkgName pass)) EmptyString).
Qed.

(** ** When the analyzer panics *)


(** X2.  When the first specification without a name of a constant
    declaration is reached the callback panics: what the block test and the
    specifications before it reported stays reported, and the
    specifications after it are not looked at. *)
Theorem const_panic_cut (pkg : string) (Doc vsDoc : option string)
    (TokPos Lparen : Z) (before after : list Node) (T : option Node)
    (Values : list Node)
    (H : existsb nameless before = false) :
  visit pkg (GenDecl Doc TokPos CONST Lparen
               (before ++ ValueSpec vsDoc [] T Values :: after))
  = Panicked (reported (blockCheck Doc TokPos Lparen msgConstBlock)
              ++ reported (forRange before (constSpec Doc Lparen))).
Proof.
  cbn [visit]. rewrite blockCheck_returns at 1. rewrite forRange_app.
  assert (Hr : returns (forRange before (constSpec Doc Lparen)) = true).
  { rewrite returns_forRange. apply forallb_forall. intros spec Hin.
    rewrite returns_constSpec. apply negb_true_iff.
    destruct (nameless spec) eqn:Hn; [|reflexivity].
    rewrite <- H. symmetry. apply existsb_exists. now exists spec. }
  destruct (forRange before (constSpec Doc Lparen)) as [[] out|out];
    [|discriminate Hr].
  cbn. now rewrite app_nil_r.
Qed.

Lemma const_panic_cut_witness :
  visit "mypkg"
    (GenDecl (Some "Limits.") 1 CONST 7
       [ValueSpec None [ {| NamePos := 10; Name := "A" |} ] None [];
        ValueSpec None [] None [];
        ValueSpec None [ {| NamePos := 30; Name := "B" |} ] None []])
  = Panicked [ {| Pos := 10; Message := msgConstNoComment "A" |} ].
Proof.
  apply (const_panic_cut "mypkg" (Some "Limits.") None 1 7
           [ValueSpec None [ {| NamePos := 10; Name := "A" |} ] None []]
           [ValueSpec None [ {| NamePos := 30; Name := "B" |} ] None []]).
  reflexivity.
Defined.


(** ** What the traversal reports *)

(** X4.  Every diagnostic of the traversal of a tree is a diagnostic of the
    callback on a node of that tree. *)
Theorem Inspect_reports_nodes (pkg : string) (n : Node) (d : Diagnostic) :
  d ∈ reported (Inspect (callback pkg) n) ->
  exists x, inTree x n /\ d ∈ reported (visit pkg x).
Proof.
  induction n as [n IH] using Node_children_ind.
  rewrite Inspect_visit, reported_bind. intros Hd.
  assert (Hch : d ∈ reported (forRange (children n) (Inspect (callback pkg))) ->
                exists x, inTree x n /\ d ∈ reported (visit pkg x)).
  { intros (c & Hc & Hdc)%reported_forRange.
    rewrite Forall_forall in IH. destruct (IH c Hc Hdc) as (x & Hx & Hdx).
    exists x. split; [now apply (inTree_child x c n) | exact Hdx]. }
  destruct (visit pkg n) as [b out|out] eqn:Hv.
  - apply elem_of_app in Hd as [Hd|Hd]; [|now apply Hch].
    exists n. split; [constructor | now rewrite Hv].
  - exists n. split; [constructor | now rewrite Hv].
Qed.

Lemma Inspect_reports_nodes_witness :
  exists x,
    inTree x (BlockStmt
      [IfStmt None
         (BinaryExpr (IdentNode {| NamePos := 20; Name := "x" |}) EQL (BasicLit 25 "5"))
         (BlockStmt []) None])
    /\ {| Pos := 25; Message := msgLiteral |} ∈ reported (visit "mypkg" x).
Proof.
  apply (Inspect_reports_nodes "mypkg"). cbn. apply list_elem_of_singleton.
  reflexivity.
Defined.

(** X5.  When the traversal of a tree returns, it has reported every
    diagnostic the callback reports on any node of the tree: no node is
    skipped, at any depth. *)
Theorem Inspect_reports_every_node (pkg : string) (x n : Node) (d : Diagnostic) :
  returns (Inspect (callback pkg) n) = true ->
  inTree x n -> d ∈ reported (visit pkg x) ->
  d ∈ reported (Inspect (callback pkg) n).
Proof.
  intros Hr Hx Hd. induction Hx as [n | x c n Hc Hx IH].
  - rewrite Inspect_visit. now apply reported_bind_l.
  - rewrite returns_Inspect in Hr. apply andb_true_iff in Hr as [Hv Hch].
    rewrite Inspect_visit.
    destruct (visit pkg n) as [b out|out] eqn:Hvn; [|discriminate Hv].
    eapply reported_bind_r; [reflexivity|].
    apply (reported_forRange_elem _ _ c);
      [now rewrite returns_forRange | exact Hc |].
    apply IH; [|exact Hd].
    rewrite forallb_forall in Hch. apply Hch. now apply list_elem_of_In.
Qed.

Lemma Inspect_reports_every_node_witness :
  {| Pos := 25; Message := msgLiteral |}
  ∈ reported (Inspect (callback "main")
      (FuncDecl None None {| NamePos := 6; Name := "main" |} 1 (OtherNode [])
         (Some (BlockStmt
            [IfStmt None
               (BinaryExpr (IdentNode {| NamePos := 20; Name := "x" |}) EQL
                           (BasicLit 25 "5"))
               (BlockStmt []) None])))).
Proof.
  apply (Inspect_reports_every_node "main"
           (IfStmt None
              (BinaryExpr (IdentNode {| NamePos := 20; Name := "x" |}) EQL
                          (BasicLit 25 "5"))
              (BlockStmt []) None)).
  - reflexivity.
  - eapply inTree_child; [|eapply inTree_child; [|apply inTree_self]].
    + cbn. apply elem_of_cons. right. apply elem_of_cons. left. reflexivity.
    + cbn. apply elem_of_cons. left. reflexivity.
  - cbn. apply list_elem_of_singleton. reflexivity.
Defined.

(** ** The analyzer on a whole package *)

Lemma finalize_empty : finalize ∅ = mret tt.
Proof. unfold finalize. now rewrite map_to_list_empty. Qed.

Lemma forFiles_main (files : list File) (m : gmap string bool) :
  forFiles "main" files m
  = (forRange files (fun file => Inspect (callback "main") (fileNode file)) ;;
     mret m).
Proof.
  revert m. induction files as [|file files IH]; intros m; [reflexivity|].
  cbn [forFiles forRange]. unfold perFile.
  change (packageDoc "main" file m) with (mret m : Outcome (gmap string bool)).
  rewrite bind_ret_l, !bind_assoc. apply bind_ext. intros [].
  rewrite bind_ret_l. apply IH.
Qed.

(** X6.  On the package [main] the analyzer does the traversals and nothing
    else: it reports what the traversal of each file reports, in the order
    of the files, with no diagnostic about the name of the package, about a
    package comment or about a file named after the package, whatever the
    files are. *)
Theorem doculint_main (files : list File) :
  doculint {| PkgName := "main"; Files := files |}
  = forRange files (fun file => Inspect (callback "main") (fileNode file)).
Proof.
  rewrite doculint_eq. cbn [PkgName Files].
  change (namingReport "main") with (@nil Diagnostic).
  change (Returned tt []) with (mret tt : Outcome unit). rewrite bind_ret_l.
  rewrite forFiles_main, bind_assoc.
  rewrite <- (bind_unit_r (forRange files _)) at 2.
  apply bind_ext. intros []. rewrite bind_ret_l. apply finalize_empty.
Qed.


(** X8.  The loop over the map reports, for any map, one diagnostic for each
    key whose flag is false and nothing for the other keys, and it never
    panics. *)
Theorem finalize_reports (m : gmap string bool) (d : Diagnostic) :
  returns (finalize m) = true
  /\ (d ∈ reported (finalize m)
      <-> exists pkg, m !! pkg = Some false
                      /\ d = {| Pos := 0; Message := msgNoSameNameFile pkg |}).
Proof.
  split; [apply returns_finalize|]. split.
  - intros H. unfold finalize in H.
    apply reported_forRange in H as ([pkg b] & Hin & Hd).
    apply elem_of_map_to_list in Hin. cbn [fst] in Hd. rewrite Hin in Hd.
    destruct b; cbn in Hd; [now apply elem_of_nil in Hd|].
    apply list_elem_of_singleton in Hd. now exists pkg.
  - intros (pkg & Hm & ->).
    apply (reported_forRange_elem _ _ (pkg, false)).
    + apply returns_finalize.
    + now apply elem_of_map_to_list.
    + cbn [fst]. rewrite Hm. cbn. now apply list_elem_of_singleton.
Qed.




(** ** Nodes and comments the rules do not reach *)

(** X10.  The callback reports nothing, and asks for the children, on every
    node that is not a function declaration, an [if] statement with a binary
    condition, or a constant or type declaration.  Variable and import
    declarations, documented or not, are never reported. *)
Theorem visit_inert (pkg : string) (n : Node)
    (Hfunc : forall Doc Recv id Func T Body, n <> FuncDecl Doc Recv id Func T Body)
    (Hif : forall Init X Op Y Body Else, n <> IfStmt Init (BinaryExpr X Op Y) Body Else)
    (Hconst : forall Doc TokPos Lparen Specs, n <> GenDecl Doc TokPos CONST Lparen Specs)
    (Htype : forall Doc TokPos Lparen Specs, n <> GenDecl Doc TokPos TYPE Lparen Specs) :
  visit pkg n = Returned true [].
Proof.
  destruct n as [ | | | | | | | | | | Init Cond Body Else | | | | |
                  Doc TokPos Tok Lparen Specs | Doc Recv id Func T Body | | ];
    try reflexivity.
  - destruct Cond; try reflexivity. now destruct (Hif Init Cond1 Op Cond2 Body Else).
  - destruct Tok; try reflexivity.
    + now destruct (Hconst Doc TokPos Lparen Specs).
    + now destruct (Htype Doc TokPos Lparen Specs).
  - now destruct (Hfunc Doc Recv id Func T Body).
Qed.

Lemma visit_inert_witness :
  visit "mypkg"
    (GenDecl None 1 VAR 5
       [ValueSpec None [ {| NamePos := 8; Name := "a" |};
                         {| NamePos := 11; Name := "b" |} ] None []])
  = Returned true [].
Proof. apply visit_inert; discriminate. Defined.

Lemma length_reported_forRange {A} (l : list A) (body : A -> Outcome unit) :
  (forall x, (List.length (reported (body x)) <= 1)%nat) ->
  (List.length (reported (forRange l body)) <= List.length l)%nat.
Proof.
  intros Hb. induction l as [|x l IH]; [cbn; lia|].
  cbn [forRange List.length]. rewrite reported_bind.
  specialize (Hb x). destruct (body x) as [[] out|out]; cbn [reported] in *.
  - rewrite length_app. lia.
  - lia.
Qed.

Lemma length_constSpec (declDoc : option string) (Lparen : Z) (spec : Node) :
  (List.length (reported (constSpec declDoc Lparen spec)) <= 1)%nat.
Proof.
  destruct spec as [ | | | | | | | | | | | | | Doc Names T Values | | | | | ];
    try (cbn; lia).
  destruct Names as [|id [|id' Names]]; cbn; try lia.
  destruct (if negb (IsValid Lparen) then declDoc else Doc) as [text|];
    [|cbn; lia].
  destruct (negb (HasPrefix (TrimSpace text) (Name id))); cbn; lia.
Qed.

Lemma length_typeSpec (declDoc : option string) (Lparen : Z) (spec : Node) :
  (List.length (reported (typeSpec declDoc Lparen spec)) <= 1)%nat.
Proof.
  destruct spec; try (cbn; lia). cbn.
  destruct (if negb (IsValid Lparen) then declDoc else Doc) as [text|];
    [|cbn; lia].
  destruct (negb (HasPrefix (TrimSpace text) _)); cbn; lia.
Qed.

Lemma length_blockCheck Doc TokPos Lparen msg :
  (List.length (reported (blockCheck Doc TokPos Lparen msg)) <= 1)%nat.
Proof. unfold blockCheck. destruct (IsValid Lparen), Doc; cbn; lia. Qed.

(** X11.  The callback reports at most one diagnostic on a function
    declaration, at most two on an [if] statement, and on a constant or type
    declaration at most one for the block and one for each specification,
    however many names a specification declares. *)
Theorem visit_report_bound (pkg : string) (n : Node) :
  (List.length (reported (visit pkg n))
   <= match n with
      | GenDecl _ _ _ _ Specs => S (List.length Specs)
      | IfStmt _ _ _ _ => 2
      | FuncDecl _ _ _ _ _ _ => 1
      | _ => 0
      end)%nat.
Proof.
  destruct n as [ | | | | | | | | | | Init Cond Body Else | | | | |
                  Doc TokPos Tok Lparen Specs | Doc Recv id Func T Body | | ];
    try (cbn; lia).
  - destruct Cond; try (cbn; lia). cbn [visit].
    destruct (reportLiteral_operandReport Cond1) as (d1 & -> & [|]).
    + destruct (reportLiteral_operandReport Cond2) as (d2 & -> & [|]); cbn; lia.
    + destruct (reportLiteral_operandReport Cond2) as (d2 & -> & [|]); cbn; lia.
  - destruct Tok; try (cbn; lia).
    + rewrite reported_visit_const, length_app.
      pose proof (length_blockCheck Doc TokPos Lparen msgConstBlock).
      pose proof (length_reported_forRange Specs (constSpec Doc Lparen)
                    (length_constSpec Doc Lparen)).
      lia.
    + rewrite reported_visit_type, length_app.
      pose proof (length_blockCheck Doc TokPos Lparen msgTypeBlock).
      pose proof (length_reported_forRange Specs (typeSpec Doc Lparen)
                    (length_typeSpec Doc Lparen)).
      lia.
  - cbn [visit].
    destruct (String.eqb pkg "main" && String.eqb (Name id) "main"); [cbn; lia|].
    destruct (String.eqb (Name id) "init"); [cbn; lia|].
    destruct Doc as [text|]; [|cbn; lia].
    destruct (negb (HasPrefix (TrimSpace text) (Name id))); cbn; lia.
Qed.

(** X12.  The test of the package comment asks for [Package] and the name
    of the package as a prefix of the trimmed comment, not as its first
    words: in a package other than [main], a file whose [package] clause
    names the package and whose comment continues the name with any text
    is accepted, and the flag of the package is set. *)
Theorem package_prefix_not_word (pkg text rest : string) (file : File)
    (m : gmap string bool)
    (Hpkg : pkg <> "main")
    (Hname : Name (File_Name file) = pkg)
    (Hdoc : File_Doc file = Some text)
    (Htext : TrimSpace text = "Package " +:+ pkg +:+ rest) :
  packageDoc pkg file m = Returned (<[pkg := true]> m) [].
Proof.
  rewrite packageDoc_clause by exact Hpkg. unfold clauseMatches, packageComment.
  rewrite Hname, String.eqb_refl, Hdoc.
  assert (Hp : HasPrefix (TrimSpace text) (expectedPrefix pkg) = true).
  { apply HasPrefix_spec. exists rest. exact Htext. }
  now rewrite Hp.
Qed.

Lemma package_prefix_not_word_witness :
  packageDoc "net"
    {| Basename := "net"; File_Doc := Some "Package network does the work.";
       File_Name := {| NamePos := 9; Name := "net" |}; File_Decls := [] |} ∅
  = Returned (<["net" := true]> ∅) [].
Proof.
  apply (package_prefix_not_word "net" "Package network does the work."
           "work does the work.").
  - discriminate.
  - reflexivity.
  - reflexivity.
  - reflexivity.
Defined.

Lemma TrimSpace_blank (s : string) : isBlank s = true -> TrimSpace s = EmptyString.
Proof.
  intros H. unfold TrimSpace.
  assert (Hf : trimFront false s = EmptyString).
  { induction s as [|c s IH]; [reflexivity|].
    cbn [isBlank] in H. apply andb_true_iff in H as [Hc Hs].
    cbn [trimFront]. rewrite Hc. now apply IH. }
  now rewrite Hf.
Qed.

Lemma HasPrefix_empty (p : string) : p <> EmptyString -> HasPrefix EmptyString p = false.
Proof. now destruct p. Qed.

(** X13.  A comment made of white space alone counts as a comment that does
    not begin with the name, not as a missing comment: for a function, a
    constant and a type with a name the diagnostic is the one that asks for
    the name at the beginning. *)
Theorem blank_comment (pkg text : string) (id : Ident)
    (Hblank : isBlank text = true) (Hname : Name id <> EmptyString) :
  (forall Recv Func T Body,
      ~ ((pkg = "main" /\ Name id = "main") \/ Name id = "init") ->
      visit pkg (FuncDecl (Some text) Recv id Func T Body)
      = Returned true [ {| Pos := Func; Message := msgFuncPrefix (Name id) |} ])
  /\ (forall declDoc Lparen T Values, IsValid Lparen = true ->
      constSpec declDoc Lparen (ValueSpec (Some text) [id] T Values)
      = Returned tt [ {| Pos := NamePos id; Message := msgConstPrefix (Name id) |} ])
  /\ (forall declDoc Lparen T, IsValid Lparen = true ->
      typeSpec declDoc Lparen (TypeSpec (Some text) id T)
      = Returned tt [ {| Pos := NamePos id; Message := msgTypePrefix (Name id) |} ]).
Proof.
  assert (Hp : HasPrefix (TrimSpace text) (Name id) = false).
  { rewrite TrimSpace_blank by exact Hblank. now apply HasPrefix_empty. }
  split; [|split].
  - intros Recv Func T Body Hn. rewrite visit_FuncDecl_checked by exact Hn.
    now rewrite Hp.
  - intros declDoc Lparen T Values Hl. cbn [constSpec List.length Nat.ltb Nat.leb].
    rewrite Hl. cbn [negb]. now rewrite Hp.
  - intros declDoc Lparen T Hl. cbn [typeSpec]. rewrite Hl. cbn [negb].
    now rewrite Hp.
Qed.

Lemma blank_comment_witness :
  visit "mypkg"
    (FuncDecl (Some (bytes [32; 10]%nat)) None {| NamePos := 6; Name := "run" |} 1
       (OtherNode []) None)
  = Returned true [ {| Pos := 1; Message := msgFuncPrefix "run" |} ].
Proof.
  apply (proj1 (blank_comment "mypkg" (bytes [32; 10]%nat)
                  {| NamePos := 6; Name := "run" |} eq_refl ltac:(discriminate))).
  intros [[H _] | H]; discriminate H.
Defined.

(** ** The advice of the naming messages *)

Lemma lowerByte_idem (c : ascii) : lowerByte (lowerByte c) = lowerByte c.
Proof. destruct c as [[] [] [] [] [] [] [] []]; reflexivity. Qed.

Lemma lowerByte_separator (c : ascii) :
  containsByte "_-" (lowerByte c) = containsByte "_-" c.
Proof. destruct c as [[] [] [] [] [] [] [] []]; reflexivity. Qed.

Lemma ToLower_idem (s : string) : ToLower (ToLower s) = ToLower s.
Proof.
  induction s as [|c s IH]; [reflexivity|].
  cbn [ToLower]. now rewrite lowerByte_idem, IH.
Qed.

Lemma ContainsAny_ToLower (s : string) :
  ContainsAny (ToLower s) "_-" = ContainsAny s "_-".
Proof.
  induction s as [|c s IH]; [reflexivity|].
  cbn [ToLower ContainsAny]. now rewrite lowerByte_separator, IH.
Qed.

(** X14.  For an ASCII name the two rules of [validatePackageName] are
    independent: turning the name into lower case removes the casing
    violation and neither adds nor removes a separator violation.  So the
    lower-case form of a name without hyphen and underscore is accepted,
    and the lower-case form of a name with one of them still gets the
    separator message. *)
Theorem lowercase_repairs (pkg : string) (Hascii : isASCII pkg = true) :
  (ContainsAny pkg "_-" = false ->
   validatePackageName (ToLower pkg) = EmptyString)
  /\ (ContainsAny pkg "_-" = true ->
      validatePackageName (ToLower pkg) = msgSeparator (ToLower pkg))
  /\ validatePackageName (ToLower pkg) <> msgLowercase (ToLower pkg).
Proof.
  unfold validatePackageName.
  rewrite ContainsAny_ToLower, ToLower_idem, String.eqb_refl. cbn [negb].
  split; [|split].
  - now intros ->.
  - now intros ->.
  - destruct (ContainsAny pkg "_-"); [apply msgSeparator_lowercase | discriminate].
Qed.

Lemma lowercase_repairs_witness :
  validatePackageName (ToLower "MyPkg") = EmptyString.
Proof.
  apply (proj1 (lowercase_repairs "MyPkg" eq_refl)). reflexivity.
Defined.

(** ** Literals that are not direct operands *)

Lemma forRange_silent {A} (l : list A) (body : A -> Outcome unit) :
  Forall (fun x => body x = Returned tt []) l -> forRange l body = Returned tt [].
Proof.
  induction 1 as [|x l Hx Hl IH]; [reflexivity|].
  cbn [forRange]. now rewrite Hx, IH.
Qed.

Lemma visit_plain (pkg : string) (n : Node) :
  plain n = true -> visit pkg n = Returned true [].
Proof. destruct n; try reflexivity; discriminate. Qed.

Lemma Inspect_plain (pkg : string) (n : Node) :
  (forall x, inTree x n -> plain x = true) ->
  Inspect (callback pkg) n = Returned tt [].
Proof.
  induction n as [n IH] using Node_children_ind. intros H.
  rewrite Inspect_visit, visit_plain by (apply H; constructor).
  rewrite bind_Returned, forRange_silent; [reflexivity|].
  rewrite Forall_forall in IH. apply Forall_forall. intros c Hc.
  apply IH; [exact Hc|]. intros x Hx. apply H. now apply (inTree_child x c n).
Qed.

Lemma inTree_inv (x n : Node) :
  inTree x n -> x = n \/ exists c, c ∈ children n /\ inTree x c.
Proof. intros H. inversion H; subst; [now left | right; eauto]. Qed.

(** X15.  A literal is reported only as a direct operand of the condition.
    The traversal of a tree made of expressions and plain statements
    reports nothing, whatever literals and comparisons it holds; and an
    [if] statement whose condition is such a tree, but not itself a binary
    expression (a comparison in parentheses, a negated comparison, a
    call), reports what the traversal of its body reports and no more. *)
Theorem buried_literal (pkg : string) (Cond Body : Node)
    (Hplain : forall x, inTree x Cond -> plain x = true)
    (Hcond : forall X Op Y, Cond <> BinaryExpr X Op Y) :
  Inspect (callback pkg) Cond = Returned tt []
  /\ Inspect (callback pkg) (IfStmt None Cond Body None)
     = Inspect (callback pkg) Body.
Proof.
  pose proof (Inspect_plain pkg Cond Hplain) as Hc.
  split; [exact Hc|].
  rewrite (Inspect_visit pkg (IfStmt None Cond Body None)).
  assert (Hv : visit pkg (IfStmt None Cond Body None) = Returned true []).
  { destruct Cond; try reflexivity. now destruct (Hcond Cond1 Op Cond2). }
  rewrite Hv, bind_Returned. cbn [children optList app forRange].
  rewrite Hc, bind_Returned, bind_unit_r.
  now destruct (Inspect (callback pkg) Body).
Qed.

Lemma buried_literal_witness :
  Inspect (callback "mypkg")
    (IfStmt None
       (ParenExpr (BinaryExpr (IdentNode {| NamePos := 5; Name := "x" |}) EQL
                              (BasicLit 10 "5")))
       (BlockStmt []) None)
  = Inspect (callback "mypkg") (BlockStmt []).
Proof.
  apply (buried_literal "mypkg").
  - intros x Hx.
    apply inTree_inv in Hx as [->|(c & Hc & Hx)]; [reflexivity|].
    cbn in Hc. apply list_elem_of_singleton in Hc as ->.
    apply inTree_inv in Hx as [->|(c & Hc & Hx)]; [reflexivity|].
    cbn in Hc. apply elem_of_cons in Hc as [->|Hc].
    + apply inTree_inv in Hx as [->|(c & Hc & Hx)]; [reflexivity|].
      cbn in Hc. now apply elem_of_nil in Hc.
    + apply list_elem_of_singleton in Hc as ->.
      apply inTree_inv in Hx as [->|(c & Hc & Hx)]; [reflexivity|].
      cbn in Hc. now apply elem_of_nil in Hc.
  - discriminate.
Defined.
